(** * simple-flask-app: the job executors, the queue client and the API views

    A shallow embedding of [src/app.py].  Python values that travel through
    the program (request bodies, task arguments, task results, response
    bodies) are the inductive [pyval]; the two Celery tasks are programs of a
    small output-and-exception monad [task]; the flask-restx views are
    programs of a state-and-exception monad [view] over the broker; the
    framework's dispatch, which turns a view's return value or uncaught
    exception into an HTTP response, is [handle].

    What the embedding leaves abstract: the text Python's [repr] gives floats,
    containers and exception objects ([py_repr]), and the identifier Celery
    draws for the n-th published message ([uuid]).  A request is handled as
    one step: no worker step falls between the reads of a view.  The routes
    are those of the [api] namespace; the page at the root is not part of
    the embedding. *)

From Stdlib Require Import ZArith DecimalString Lia.
From stdpp Require Import base option list strings gmap.

#[local] Set Warnings "-register-all".

Local Open Scope string_scope.
Local Open Scope list_scope.
Local Open Scope Z_scope.

(** ** Python values *)

(** Exceptions the modelled code can raise. *)
Inductive exn : Type :=
| KeyError (key : string)
| TypeError (what : string)
| AttributeError (what : string).

(** The values [request.get_json()] can return, closed under what the tasks
    return and what the result backend hands back for a failed job. A dict
    is kept as its items in insertion order. *)
Inductive pyval : Type :=
| PNone
| PBool (b : bool)
| PInt (z : Z)
| PFloat (mantissa exponent : Z)
| PStr (s : string)
| PList (items : list pyval)
| PDict (items : list (string * pyval))
| PExc (e : exn).

(** Normal return or a raised exception. *)
Inductive result (A : Type) : Type :=
| Ok (a : A)
| Raise (e : exn).
Arguments Ok {A} a.
Arguments Raise {A} e.

(** [d.get(k)] on the items of a dict: the value bound to [k], if any. *)
Fixpoint dict_get (k : string) (items : list (string * pyval)) : option pyval :=
  match items with
  | [] => None
  | (k', v) :: rest => if String.eqb k k' then Some v else dict_get k rest
  end.

(** What [json.dumps] can encode: everything but an exception object,
    wherever it sits in the value. *)
Fixpoint encodable (v : pyval) : bool :=
  match v with
  | PExc _ => false
  | PList items => forallb encodable items
  | PDict items => forallb (fun kv => let '(_, x) := kv in encodable x) items
  | _ => true
  end.

(** [str(z)] for an int: decimal digits, with a leading minus sign below zero. *)
Definition str_int (z : Z) : string :=
  NilZero.string_of_int (Z.to_int z).

(** [range(n)] for an int [n]: 0, 1, ..., n-1; empty when [n <= 0]. *)
Definition range (n : Z) : list Z :=
  map Z.of_nat (seq 0 (Z.to_nat n)).

(** [s] occurs in [t] as a contiguous substring. *)
Definition contains (t s : string) : Prop :=
  exists pre post, t = pre +:+ s +:+ post.

(** ** Effects of a task body *)

(** What a running task does besides returning: lines written to standard
    output, and time spent in [time.sleep]. *)
Inductive effect : Type :=
| Stdout (line : string)
| Sleep (seconds : Z).

(** Seconds slept along a trace. *)
Fixpoint elapsed (tr : list effect) : Z :=
  match tr with
  | [] => 0
  | Stdout _ :: tr' => elapsed tr'
  | Sleep n :: tr' => n + elapsed tr'
  end.

(** Lines printed along a trace. *)
Fixpoint printed (tr : list effect) : list string :=
  match tr with
  | [] => []
  | Stdout l :: tr' => l :: printed tr'
  | Sleep _ :: tr' => printed tr'
  end.

(** A task body: the effects it performed, and how it ended. *)
Definition task (A : Type) : Type := (list effect * result A)%type.

Definition task_ret {A} (a : A) : task A := ([], Ok a).

Definition task_bind {A B} (m : task A) (k : A -> task B) : task B :=
  match m with
  | (tr, Ok a) => let '(tr', r) := k a in (tr ++ tr', r)
  | (tr, Raise e) => (tr, Raise e)
  end.

Definition task_raise {A} (e : exn) : task A := ([], Raise e).

Definition print (line : string) : task unit := ([Stdout line], Ok tt).

Definition sleep (seconds : Z) : task unit := ([Sleep seconds], Ok tt).

Declare Scope task_scope.
Delimit Scope task_scope with task.
Notation "x <- m ;; k" := (task_bind m (fun x => k))
  (at level 100, m at next level, right associativity) : task_scope.
Notation "m ;; k" := (task_bind m (fun _ => k))
  (at level 100, right associativity) : task_scope.

(** [for x in xs: body(x)]. *)
Fixpoint for_each {A} (xs : list A) (body : A -> task unit) : task unit :=
  match xs with
  | [] => task_ret tt
  | x :: xs' => (body x ;; for_each xs' body)%task
  end.

(** [range(v)] on an arbitrary value: ints (and bools, which are ints) give a
    range, anything else is a TypeError. *)
Definition py_range (v : pyval) : task (list Z) :=
  match v with
  | PInt z => task_ret (range z)
  | PBool b => task_ret (range (if b then 1 else 0))
  | _ => task_raise (TypeError "object cannot be interpreted as an integer")
  end.

(** ** A sample environment

    Concrete choices for the two parameters of the development, used where
    a statement is instantiated on explicit inputs. *)

Definition sample_repr (v : pyval) : string := "<object>".

Fixpoint serial_id (n : nat) : string :=
  match n with
  | O => "id"
  | S n' => "+" +:+ serial_id n'
  end.

Section App.

(** [repr] of the values whose text is not reproduced here. *)
Variable py_repr : pyval -> string.

(** What an f-string field [{v}] expands to. *)
Definition py_str (v : pyval) : string :=
  match v with
  | PNone => "None"
  | PBool true => "True"
  | PBool false => "False"
  | PInt z => str_int z
  | PStr s => s
  | _ => py_repr v
  end.

(** ** The Celery tasks (app.py, lines 46-68) *)

Definition send_email_async (to subject message : pyval) : task pyval :=
  (print ("📧 Sending email to: " +:+ py_str to) ;;
   print ("📋 Subject: " +:+ py_str subject) ;;
   print ("📝 Message: " +:+ py_str message) ;;
   sleep 3 ;;
   task_ret (PStr ("Email sent to " +:+ py_str to +:+ " successfully!")))%task.

Definition progress_line (task_name duration : pyval) (i : Z) : string :=
  "⏳ Task " +:+ py_str task_name +:+ ": " +:+ str_int (i + 1) +:+ "/" +:+ py_str duration.

Definition long_running_task_async (task_name duration : pyval) : task pyval :=
  (print ("🚀 Starting task: " +:+ py_str task_name) ;;
   print ("⏰ Duration: " +:+ py_str duration +:+ " seconds") ;;
   r <- py_range duration ;;
   for_each r (fun i => print (progress_line task_name duration i) ;; sleep 1) ;;
   print ("✅ Task " +:+ py_str task_name +:+ " completed!") ;;
   task_ret (PStr ("Task " +:+ py_str task_name +:+ " completed in "
                   +:+ py_str duration +:+ " seconds")))%task.

(** ** The broker and the result backend *)

(** The tasks registered with the Celery application. *)
Inductive registered : Type :=
| SendEmailAsync
| LongRunningTaskAsync.

(** A message published to the broker by [delay]. *)
Record message : Type := Message {
  msg_id : string;
  msg_task : registered;
  msg_args : list pyval
}.

(** The job states of section 3 of the specification, under Celery's names.
    The application leaves [task_track_started] at its default, so a worker
    records a final state only and [STARTED] is never stored. *)
Inductive state : Type :=
| PENDING
| STARTED
| SUCCESS
| FAILURE.

Definition state_name (s : state) : string :=
  match s with
  | PENDING => "PENDING"
  | STARTED => "STARTED"
  | SUCCESS => "SUCCESS"
  | FAILURE => "FAILURE"
  end.

Definition terminal (s : state) : bool :=
  match s with
  | SUCCESS | FAILURE => true
  | PENDING | STARTED => false
  end.

(** What the result backend keeps for a job. *)
Record meta : Type := Meta {
  meta_status : state;
  meta_result : pyval
}.

(** What the backend answers for an identifier it holds nothing for. *)
Definition unknown_meta : meta := Meta PENDING PNone.

(** Everything outside the web process: the broker's queue, the result
    backend, the number of identifiers drawn so far, and what the worker
    process has printed and slept. *)
Record world : Type := World {
  published : nat;
  queue : list message;
  backend : gmap string meta;
  worker_log : list effect
}.

Definition boot : world := World 0 [] ∅ [].

(** The identifier Celery draws for the n-th message published. *)
Variable uuid : nat -> string.

(** ** Views: programs over the world that may raise *)

Definition view (A : Type) : Type := world -> result A * world.

Definition view_ret {A} (a : A) : view A := fun w => (Ok a, w).

Definition view_bind {A B} (m : view A) (k : A -> view B) : view B :=
  fun w =>
    match m w with
    | (Ok a, w') => k a w'
    | (Raise e, w') => (Raise e, w')
    end.

Definition view_lift {A} (r : result A) : view A := fun w => (r, w).

Declare Scope view_scope.
Delimit Scope view_scope with view.
Notation "x <- m ;; k" := (view_bind m (fun x => k))
  (at level 100, m at next level, right associativity) : view_scope.

(** [data[key]]: only a dict can be indexed by a string, and only at a key it
    holds. *)
Definition subscript (data : pyval) (key : string) : result pyval :=
  match data with
  | PDict items =>
      match dict_get key items with
      | Some v => Ok v
      | None => Raise (KeyError key)
      end
  | _ => Raise (TypeError "indexing by a string")
  end.

(** [data.get(key, fallback)]. *)
Definition get_or (data : pyval) (key : string) (fallback : pyval) : result pyval :=
  match data with
  | PDict items => Ok (default fallback (dict_get key items))
  | _ => Raise (AttributeError "get")
  end.

(** [t.delay] on positional arguments: draw an identifier, publish the
    message, return at once with the identifier.  The broker is taken to
    be reachable, so publishing does not raise. *)
Definition delay (t : registered) (args : list pyval) : view string :=
  fun w =>
    let task_id := uuid (published w) in
    (Ok task_id,
     World (S (published w)) (queue w ++ [Message task_id t args])
           (backend w) (worker_log w)).

(** The backend read behind [AsyncResult(task_id).status] and [.result]. *)
Definition get_task_meta (task_id : string) : view meta :=
  fun w => (Ok (default unknown_meta (backend w !! task_id)), w).

Definition AsyncResult_status (task_id : string) : view pyval :=
  (m <- get_task_meta task_id ;; view_ret (PStr (state_name (meta_status m))))%view.

Definition AsyncResult_result (task_id : string) : view pyval :=
  (m <- get_task_meta task_id ;; view_ret (meta_result m))%view.

(** ** The API routes (app.py, lines 71-131) *)

(** A view returns a body, or a body and a status code. *)
Definition rv : Type := (pyval * option Z)%type.

Definition HealthCheck_get : view rv :=
  view_ret (PDict [("status", PStr "healthy"); ("message", PStr "API is running!")], None).

Definition SendEmail_post (data : pyval) : view rv :=
  (to <- view_lift (subscript data "to") ;;
   subject <- view_lift (subscript data "subject") ;;
   message <- view_lift (subscript data "message") ;;
   task_id <- delay SendEmailAsync [to; subject; message] ;;
   view_ret (PDict [("message", PStr "Email task started"); ("task_id", PStr task_id)],
             Some 202))%view.

Definition StartTask_post (data : pyval) : view rv :=
  (name <- view_lift (subscript data "name") ;;
   duration <- view_lift (get_or data "duration" (PInt 5)) ;;
   task_id <- delay LongRunningTaskAsync [name; duration] ;;
   view_ret (PDict [("message", PStr "Task started"); ("task_id", PStr task_id)],
             Some 202))%view.

(** [task.status] and [task.result] are two reads of the backend; a request
    being handled as one step, both see the same world. *)
Definition TaskStatus_get (task_id : string) : view rv :=
  (status <- AsyncResult_status task_id ;;
   result <- AsyncResult_result task_id ;;
   view_ret (PDict [("task_id", PStr task_id); ("status", status); ("result", result)],
             None))%view.

Definition TestEndpoint_get : view rv :=
  view_ret (PDict [("message", PStr "Hello from Flask!");
                   ("endpoints", PList [PStr "/api/health"; PStr "/api/send-email";
                                        PStr "/api/start-task";
                                        PStr "/api/task-status/<task_id>"])], None).

(** The requests the route table answers; [json] is what
    [request.get_json()] returns in the view. *)
Inductive request : Type :=
| GET_health
| POST_send_email (json : pyval)
| POST_start_task (json : pyval)
| GET_task_status (task_id : string)
| GET_test.

Definition route (req : request) : view rv :=
  match req with
  | GET_health => HealthCheck_get
  | POST_send_email json => SendEmail_post json
  | POST_start_task json => StartTask_post json
  | GET_task_status task_id => TaskStatus_get task_id
  | GET_test => TestEndpoint_get
  end.

(** What the client receives: the view's body under its status code, or the
    framework's answer to an exception raised while the request was
    handled. *)
Inductive response : Type :=
| Response (code : Z) (body : pyval)
| ServerError (e : exn).

Definition status_code (r : response) : Z :=
  match r with
  | Response code _ => code
  | ServerError _ => 500
  end.

(** The exception [json.dumps] raises on a value it cannot encode. *)
Definition not_serializable : exn := TypeError "Object is not JSON serializable".

(** Dispatch: the view runs; the body it returns is encoded as JSON and
    goes out under the view's code, 200 when it gave none.  An exception
    that escapes the view, or that the encoder raises, is answered 500. *)
Definition handle (req : request) (w : world) : response * world :=
  match route req w with
  | (Ok (body, code), w') =>
      (if encodable body then Response (default 200 code) body
       else ServerError not_serializable, w')
  | (Raise e, w') => (ServerError e, w')
  end.

(** ** The worker *)

(** Calling a registered task on the arguments of a message; the second
    parameter of [long_running_task_async] defaults to 5. *)
Definition call (m : message) : task pyval :=
  match msg_task m, msg_args m with
  | SendEmailAsync, [to; subject; message] => send_email_async to subject message
  | LongRunningTaskAsync, [task_name] => long_running_task_async task_name (PInt 5)
  | LongRunningTaskAsync, [task_name; duration] => long_running_task_async task_name duration
  | _, _ => task_raise (TypeError "arguments do not match the signature")
  end.

(** How a finished call is recorded. *)
Definition outcome (r : result pyval) : meta :=
  match r with
  | Ok v => Meta SUCCESS v
  | Raise e => Meta FAILURE (PExc e)
  end.

(** The worker takes the oldest message, runs it to its end and stores the
    outcome under the message's identifier. *)
Definition work (w : world) : world :=
  match queue w with
  | [] => w
  | m :: rest =>
      let '(tr, r) := call m in
      World (published w) rest (<[msg_id m := outcome r]> (backend w))
            (worker_log w ++ tr)
  end.

(** ** Histories *)

Inductive event : Type :=
| Incoming (req : request)
| Worker.

(** One event: a request is answered, or the worker processes a message. *)
Definition step (ev : event) (w : world) : list response * world :=
  match ev with
  | Incoming req => let '(r, w') := handle req w in ([r], w')
  | Worker => ([], work w)
  end.

(** A history from a given world: the responses sent, oldest first, and the
    world it leaves. *)
Fixpoint run (evs : list event) (w : world) : list response * world :=
  match evs with
  | [] => ([], w)
  | ev :: evs' =>
      let '(rs, w') := step ev w in
      let '(rs', w'') := run evs' w' in
      (rs ++ rs', w'')
  end.

(** The identifiers handed out so far. *)
Definition issued (w : world) : list string :=
  uuid <$> seq 0 (published w).

(** The [task_id] of an accepted submission's response. *)
Definition task_id_of (r : response) : option string :=
  match r with
  | Response 202 (PDict items) =>
      match dict_get "task_id" items with
      | Some (PStr task_id) => Some task_id
      | _ => None
      end
  | _ => None
  end.

(** A submission the views accept: a dict holding every key the view indexes. *)
Definition valid_submission (req : request) : bool :=
  match req with
  | POST_send_email (PDict items) =>
      bool_decide (is_Some (dict_get "to" items))
      && bool_decide (is_Some (dict_get "subject" items))
      && bool_decide (is_Some (dict_get "message" items))
  | POST_start_task (PDict items) => bool_decide (is_Some (dict_get "name" items))
  | _ => false
  end.

(** The accepted submissions of a history. *)
Fixpoint accepted (evs : list event) : nat :=
  match evs with
  | [] => O
  | Incoming req :: evs' =>
      if valid_submission req then S (accepted evs') else accepted evs'
  | Worker :: evs' => accepted evs'
  end.

(** What every world reached from [boot] satisfies: a stored record is
    final, and whatever identifier is stored or queued has been handed out. *)
Record consistent (w : world) : Prop := Consistent {
  stored_final :
    forall task_id m, backend w !! task_id = Some m -> terminal (meta_status m) = true;
  stored_issued :
    forall task_id m, backend w !! task_id = Some m -> task_id ∈ issued w;
  queued_issued :
    forall m, m ∈ queue w -> msg_id m ∈ issued w
}.

(** The worker processing [n] messages in a row. *)
Fixpoint drain (n : nat) (w : world) : world :=
  match n with
  | O => w
  | S n' => drain n' (work w)
  end.

(** What [range] takes for a bound: an int, or a bool, which is an int. *)
Definition integral (v : pyval) : bool :=
  match v with
  | PInt _ | PBool _ => true
  | _ => false
  end.

(** A message whose arguments fit its task's signature the way the views
    pass them: three for the e-mail task, two for the long-running one. *)
Definition well_formed (m : message) : Prop :=
  match msg_task m, msg_args m with
  | SendEmailAsync, [_; _; _] => True
  | LongRunningTaskAsync, [_; _] => True
  | _, _ => False
  end.

(** The two kinds of record the worker stores for such messages. *)
Definition shaped (m : meta) : Prop :=
  (meta_status m = SUCCESS /\ exists s, meta_result m = PStr s)
  \/ (meta_status m = FAILURE /\ exists what, meta_result m = PExc (TypeError what)).

(** Queued messages fit their signatures and stored records have one of
    the two shapes. *)
Record regular (w : world) : Prop := Regular {
  queued_well_formed : forall m, m ∈ queue w -> well_formed m;
  stored_shaped : forall task_id m, backend w !! task_id = Some m -> shaped m
}.

(** No identifier is queued twice, and a queued identifier has no record
    yet. *)
Record orderly (w : world) : Prop := Orderly {
  queue_nodup : NoDup (msg_id <$> queue w);
  queue_pending : forall m, m ∈ queue w -> backend w !! msg_id m = None
}.

(** Every identifier handed out is still queued or already has a record. *)
Definition tracked (w : world) : Prop :=
  forall task_id,
    task_id ∈ issued w ->
    task_id ∈ (msg_id <$> queue w) \/ is_Some (backend w !! task_id).

(** ** The task bodies *)

Lemma for_each_trace {A} (body : A -> task unit) (g : A -> list effect) (xs : list A) :
  (forall x, body x = (g x, Ok tt)) ->
  for_each xs body = (flat_map g xs, Ok tt).
Proof.
  intros Hbody. induction xs as [|x xs IH]; [reflexivity|].
  cbn [for_each flat_map]. rewrite Hbody, IH. reflexivity.
Qed.

Lemma elapsed_app (tr1 tr2 : list effect) :
  elapsed (tr1 ++ tr2) = elapsed tr1 + elapsed tr2.
Proof.
  induction tr1 as [|[l|n] tr1 IH]; cbn [elapsed app]; lia.
Qed.

Lemma elapsed_ticks (f : Z -> string) (xs : list Z) :
  elapsed (flat_map (fun i => [Stdout (f i); Sleep 1]) xs) = Z.of_nat (length xs).
Proof.
  induction xs as [|x xs IH]; [reflexivity|].
  cbn [flat_map app elapsed length]. rewrite IH. lia.
Qed.

Lemma printed_app (tr1 tr2 : list effect) :
  printed (tr1 ++ tr2) = printed tr1 ++ printed tr2.
Proof.
  induction tr1 as [|[l|n] tr1 IH]; cbn [printed app]; [reflexivity| |exact IH].
  by rewrite IH.
Qed.

Lemma printed_ticks (f : Z -> string) (xs : list Z) :
  printed (flat_map (fun i => [Stdout (f i); Sleep 1]) xs) = map f xs.
Proof.
  induction xs as [|x xs IH]; [reflexivity|].
  cbn [flat_map app printed map]. by rewrite IH.
Qed.

Lemma length_range (n : Z) : length (range n) = Z.to_nat n.
Proof. unfold range. by rewrite length_map, length_seq. Qed.

Lemma range_nonpos (n : Z) : n <= 0 -> range n = [].
Proof.
  intros Hn. unfold range. by replace (Z.to_nat n) with O by lia.
Qed.

(** The whole behaviour of the long-running task on an int duration. *)
Lemma long_running_task_async_int (task_name : pyval) (d : Z) :
  long_running_task_async task_name (PInt d)
  = ([Stdout ("🚀 Starting task: " +:+ py_str task_name);
      Stdout ("⏰ Duration: " +:+ str_int d +:+ " seconds")]
     ++ flat_map (fun i => [Stdout (progress_line task_name (PInt d) i); Sleep 1]) (range d)
     ++ [Stdout ("✅ Task " +:+ py_str task_name +:+ " completed!")],
     Ok (PStr ("Task " +:+ py_str task_name +:+ " completed in " +:+ str_int d +:+ " seconds"))).
Proof.
  unfold long_running_task_async, py_range.
  cbv beta iota delta [task_bind task_ret].
  rewrite (for_each_trace _
             (fun i => [Stdout (progress_line task_name (PInt d) i); Sleep 1]))
    by reflexivity.
  reflexivity.
Qed.

Lemma append_assoc (a b c : string) : (a +:+ b) +:+ c = a +:+ b +:+ c.
Proof.
  induction a as [|x a IH]; [reflexivity|].
  change (String x ((a +:+ b) +:+ c) = String x (a +:+ b +:+ c)).
  by rewrite IH.
Qed.

Lemma contains_middle (pre s post : string) : contains (pre +:+ s +:+ post) s.
Proof. by exists pre, post. Qed.

(** C2. On a string [name] and an int [d >= 0] the long-running task prints
    one progress line and sleeps one second for each of the [d] values of
    [range d], so it has printed [d] progress lines and slept [d] seconds
    when it returns, and it returns
    "Task {name} completed in {d} seconds", which contains the name and the
    duration; for "build" and 2 that is "Task build completed in 2 seconds". *)
Theorem long_running_task_async_completes (name : string) (d : Z) :
  0 <= d ->
  let confirmation :=
    "Task " +:+ name +:+ " completed in " +:+ str_int d +:+ " seconds" in
  exists tr,
    long_running_task_async (PStr name) (PInt d) = (tr, Ok (PStr confirmation))
    /\ tr = [Stdout ("🚀 Starting task: " +:+ name);
             Stdout ("⏰ Duration: " +:+ str_int d +:+ " seconds")]
            ++ flat_map (fun i => [Stdout (progress_line (PStr name) (PInt d) i); Sleep 1])
                        (range d)
            ++ [Stdout ("✅ Task " +:+ name +:+ " completed!")]
    /\ printed tr = ["🚀 Starting task: " +:+ name;
                     "⏰ Duration: " +:+ str_int d +:+ " seconds"]
                    ++ map (progress_line (PStr name) (PInt d)) (range d)
                    ++ ["✅ Task " +:+ name +:+ " completed!"]
    /\ Z.of_nat (length (map (progress_line (PStr name) (PInt d)) (range d))) = d
    /\ elapsed tr = d
    /\ contains confirmation name
    /\ contains confirmation (str_int d)
    /\ snd (long_running_task_async (PStr "build") (PInt 2))
       = Ok (PStr "Task build completed in 2 seconds").
Proof.
  intros Hd confirmation. eexists. split; [apply long_running_task_async_int|].
  split; [reflexivity|].
  assert (Hlen : Z.of_nat (length (range d)) = d) by (rewrite length_range; lia).
  split.
  { cbn [app printed]. by rewrite printed_app, printed_ticks. }
  split; [by rewrite length_map|].
  split.
  { cbn [app elapsed]. rewrite elapsed_app, elapsed_ticks. cbn [elapsed]. lia. }
  split; [apply contains_middle|].
  split; [|reflexivity].
  exists ("Task " +:+ name +:+ " completed in "), " seconds".
  unfold confirmation. by rewrite !append_assoc.
Qed.

(** C3. The send-email task has no failing path: on any three arguments it
    prints three lines, sleeps 3 seconds and returns; on strings the value
    returned is "Email sent to {to} successfully!", which contains [to]. *)
Theorem send_email_async_succeeds (to subject message : string) :
  send_email_async (PStr to) (PStr subject) (PStr message)
  = ([Stdout ("📧 Sending email to: " +:+ to);
      Stdout ("📋 Subject: " +:+ subject);
      Stdout ("📝 Message: " +:+ message);
      Sleep 3],
     Ok (PStr ("Email sent to " +:+ to +:+ " successfully!")))
  /\ elapsed (fst (send_email_async (PStr to) (PStr subject) (PStr message))) = 3
  /\ contains ("Email sent to " +:+ to +:+ " successfully!") to
  /\ (forall a b c : pyval,
        exists tr v, send_email_async a b c = (tr, Ok v) /\ elapsed tr = 3).
Proof.
  split; [reflexivity|]. split; [reflexivity|].
  split; [apply contains_middle|].
  intros a b c. by eexists _, _.
Qed.

(** C10. The long-running task returns on every int duration.  When
    [d <= 0] the range is empty, the loop body never runs, no time is
    slept, and the value returned still embeds the duration as given:
    "Task {name} completed in {d} seconds". *)
Theorem long_running_task_async_nonpositive (task_name : pyval) (d : Z) :
  d <= 0 ->
  let confirmation :=
    "Task " +:+ py_str task_name +:+ " completed in " +:+ str_int d +:+ " seconds" in
  range d = []
  /\ long_running_task_async task_name (PInt d)
     = ([Stdout ("🚀 Starting task: " +:+ py_str task_name);
         Stdout ("⏰ Duration: " +:+ str_int d +:+ " seconds");
         Stdout ("✅ Task " +:+ py_str task_name +:+ " completed!")],
        Ok (PStr confirmation))
  /\ elapsed (fst (long_running_task_async task_name (PInt d))) = 0
  /\ contains confirmation (str_int d)
  /\ (forall z : Z, exists tr v, long_running_task_async task_name (PInt z) = (tr, Ok v)).
Proof.
  intros Hd confirmation.
  assert (Hrun : long_running_task_async task_name (PInt d)
                 = ([Stdout ("🚀 Starting task: " +:+ py_str task_name);
                     Stdout ("⏰ Duration: " +:+ str_int d +:+ " seconds");
                     Stdout ("✅ Task " +:+ py_str task_name +:+ " completed!")],
                    Ok (PStr confirmation))).
  { rewrite long_running_task_async_int, (range_nonpos d Hd). reflexivity. }
  split; [by apply range_nonpos|].
  split; [exact Hrun|].
  split; [by rewrite Hrun|].
  split.
  { exists ("Task " +:+ py_str task_name +:+ " completed in "), " seconds".
    unfold confirmation. by rewrite !append_assoc. }
  intros z. rewrite long_running_task_async_int. by eexists _, _.
Qed.

(** ** The views *)

(** The send-email view on a dict, by which keys it holds. *)
Lemma SendEmail_post_dict (items : list (string * pyval)) (w : world) :
  SendEmail_post (PDict items) w
  = match dict_get "to" items, dict_get "subject" items, dict_get "message" items with
    | Some to, Some subject, Some message =>
        (Ok (PDict [("message", PStr "Email task started");
                    ("task_id", PStr (uuid (published w)))], Some 202),
         World (S (published w))
               (queue w ++ [Message (uuid (published w)) SendEmailAsync [to; subject; message]])
               (backend w) (worker_log w))
    | None, _, _ => (Raise (KeyError "to"), w)
    | Some _, None, _ => (Raise (KeyError "subject"), w)
    | Some _, Some _, None => (Raise (KeyError "message"), w)
    end.
Proof.
  unfold SendEmail_post, view_bind, view_lift, subscript.
  destruct (dict_get "to" items); [|reflexivity].
  destruct (dict_get "subject" items); [|reflexivity].
  destruct (dict_get "message" items); reflexivity.
Qed.

(** The start-task view on a dict. *)
Lemma StartTask_post_dict (items : list (string * pyval)) (w : world) :
  StartTask_post (PDict items) w
  = match dict_get "name" items with
    | Some name =>
        (Ok (PDict [("message", PStr "Task started");
                    ("task_id", PStr (uuid (published w)))], Some 202),
         World (S (published w))
               (queue w ++ [Message (uuid (published w)) LongRunningTaskAsync
                                    [name; default (PInt 5) (dict_get "duration" items)]])
               (backend w) (worker_log w))
    | None => (Raise (KeyError "name"), w)
    end.
Proof.
  unfold StartTask_post, view_bind, view_lift, subscript, get_or.
  destruct (dict_get "name" items); reflexivity.
Qed.

(** The status view itself never raises and never changes the world; its
    body goes out as 200 unless the result it holds cannot be encoded. *)
Lemma TaskStatus_get_handle (task_id : string) (w : world) :
  handle (GET_task_status task_id) w
  = (if encodable (meta_result (default unknown_meta (backend w !! task_id)))
     then Response 200
            (PDict [("task_id", PStr task_id);
                    ("status", PStr (state_name
                                       (meta_status
                                          (default unknown_meta (backend w !! task_id)))));
                    ("result", meta_result (default unknown_meta (backend w !! task_id)))])
     else ServerError not_serializable,
     w).
Proof.
  unfold handle, route, TaskStatus_get, AsyncResult_status, AsyncResult_result,
    view_bind, get_task_meta, view_ret.
  cbn [encodable forallb andb].
  by destruct (encodable (meta_result (default unknown_meta (backend w !! task_id)))).
Qed.

(** Every request is either an accepted submission, which publishes one
    message under a fresh identifier and answers 202 with that identifier,
    or leaves the world as it was and answers without a [task_id]. *)
Lemma handle_cases (req : request) (w : world) :
  (valid_submission req = true
   /\ exists text t args,
        handle req w
        = (Response 202 (PDict [("message", PStr text);
                                ("task_id", PStr (uuid (published w)))]),
           World (S (published w))
                 (queue w ++ [Message (uuid (published w)) t args])
                 (backend w) (worker_log w)))
  \/ (valid_submission req = false
      /\ exists r, handle req w = (r, w) /\ task_id_of r = None).
Proof.
  destruct req as [|json|json|task_id|];
    try (right; split; [reflexivity|]; by eexists).
  3: { right. split; [reflexivity|]. rewrite TaskStatus_get_handle.
       destruct (encodable _); by eexists. }
  - destruct json as [| | | | |?|items|];
      try (right; split; [reflexivity|]; by eexists).
    unfold handle, route, valid_submission. rewrite SendEmail_post_dict.
    destruct (dict_get "to" items) as [to|];
      [|right; split; [reflexivity|]; by eexists].
    destruct (dict_get "subject" items) as [subject|];
      [|right; split; [reflexivity|]; by eexists].
    destruct (dict_get "message" items) as [message|];
      [|right; split; [reflexivity|]; by eexists].
    left. split; [reflexivity|]. by eexists _, _, _.
  - destruct json as [| | | | |?|items|];
      try (right; split; [reflexivity|]; by eexists).
    unfold handle, route, valid_submission. rewrite StartTask_post_dict.
    destruct (dict_get "name" items) as [name|];
      [|right; split; [reflexivity|]; by eexists].
    left. split; [reflexivity|]. by eexists _, _, _.
Qed.

(** ** Worlds reached from [boot] *)

Lemma elem_of_issued (task_id : string) (w : world) :
  task_id ∈ issued w <-> exists n, (n < published w)%nat /\ task_id = uuid n.
Proof.
  unfold issued. rewrite list_elem_of_fmap. split.
  - intros (n & -> & Hn). apply elem_of_seq in Hn. exists n. split; [lia|done].
  - intros (n & Hn & ->). exists n. split; [done|]. apply elem_of_seq. lia.
Qed.

Lemma issued_mono (task_id : string) (w w' : world) :
  (published w <= published w')%nat -> task_id ∈ issued w -> task_id ∈ issued w'.
Proof.
  rewrite !elem_of_issued. intros Hle (n & Hn & ->). exists n. split; [lia|done].
Qed.

Lemma work_cases (w : world) :
  (queue w = [] /\ work w = w)
  \/ (exists m rest tr r,
        queue w = m :: rest /\ call m = (tr, r)
        /\ work w = World (published w) rest (<[msg_id m := outcome r]> (backend w))
                          (worker_log w ++ tr)).
Proof.
  unfold work. destruct (queue w) as [|m rest]; [by left|].
  right. destruct (call m) as [tr r] eqn:Hcall. by exists m, rest, tr, r.
Qed.

Lemma outcome_terminal (r : result pyval) : terminal (meta_status (outcome r)) = true.
Proof. by destruct r. Qed.

Lemma consistent_boot : consistent boot.
Proof.
  split; cbn.
  - intros task_id m H. by rewrite lookup_empty in H.
  - intros task_id m H. by rewrite lookup_empty in H.
  - intros m H. by apply elem_of_nil in H.
Qed.

Lemma consistent_handle (req : request) (w : world) :
  consistent w -> consistent (handle req w).2.
Proof.
  intros [Hfinal Hstored Hqueued].
  destruct (handle_cases req w) as [(_ & text & t & args & ->)|(_ & r & -> & _)];
    [|by split].
  split; cbn [snd backend queue].
  - exact Hfinal.
  - intros task_id m Hm. eapply issued_mono; [|by eapply Hstored]. cbn. lia.
  - intros m [Hm | Hm%list_elem_of_singleton]%elem_of_app.
    + eapply issued_mono; [|by apply Hqueued]. cbn. lia.
    + subst m. apply elem_of_issued. exists (published w). split; [cbn; lia|done].
Qed.

Lemma consistent_work (w : world) : consistent w -> consistent (work w).
Proof.
  intros [Hfinal Hstored Hqueued].
  destruct (work_cases w) as [[_ ->]|(m & rest & tr & r & Hq & _ & ->)]; [by split|].
  assert (Hm : msg_id m ∈ issued w) by (apply Hqueued; rewrite Hq; left).
  split; cbn [backend queue].
  - intros task_id m' [[<- <-]|[_ H]]%lookup_insert_Some.
    + apply outcome_terminal.
    + by eapply Hfinal.
  - intros task_id m' [[<- <-]|[_ H]]%lookup_insert_Some.
    + exact Hm.
    + by eapply Hstored.
  - intros m' Hm'. apply (issued_mono _ w); [cbn; lia|].
    apply Hqueued. rewrite Hq. by right.
Qed.

Lemma consistent_run (evs : list event) (w : world) :
  consistent w -> consistent (run evs w).2.
Proof.
  revert w. induction evs as [|ev evs IH]; intros w Hw; [exact Hw|].
  cbn [run]. destruct ev as [req|]; cbn [step].
  - pose proof (consistent_handle req w Hw) as Hw'.
    destruct (handle req w) as [r w']. specialize (IH w' Hw').
    by destruct (run evs w').
  - specialize (IH (work w) (consistent_work w Hw)).
    by destruct (run evs (work w)).
Qed.

(** C6. In every world a history leads to, the status view builds the
    dict of task_id, status and result: task_id is the path parameter,
    status names the state the backend reports for it, and result is the
    stored result when that state is final and None otherwise.  The answer
    is 200 with that dict only when the result can be encoded.  The record
    of a failed job holds the exception object, so the request for it is
    answered 500: so it is for the job of a start-task body whose duration
    is null, once the worker has run it. *)
Theorem TaskStatus_get_answers (evs : list event) (task_id : string) :
  let w := (run evs boot).2 in
  let m := default unknown_meta (backend w !! task_id) in
  let failed :=
    (run [Incoming (POST_start_task (PDict [("name", PStr "build"); ("duration", PNone)]));
          Worker] boot).2 in
  handle (GET_task_status task_id) w
  = (if encodable (meta_result m)
     then Response 200
            (PDict [("task_id", PStr task_id);
                    ("status", PStr (state_name (meta_status m)));
                    ("result", if terminal (meta_status m) then meta_result m else PNone)])
     else ServerError not_serializable,
     w)
  /\ handle (GET_task_status (uuid 0)) failed = (ServerError not_serializable, failed)
  /\ status_code (handle (GET_task_status (uuid 0)) failed).1 = 500.
Proof.
  intros w m failed.
  assert (Hfailed : handle (GET_task_status (uuid 0)) failed
                    = (ServerError not_serializable, failed)).
  { rewrite TaskStatus_get_handle.
    assert (Hlook : backend failed !! uuid 0
                    = Some (Meta FAILURE
                              (PExc (TypeError "object cannot be interpreted as an integer")))).
    { change (backend failed)
        with (<[uuid 0 := Meta FAILURE
                            (PExc (TypeError "object cannot be interpreted as an integer"))]>
                (∅ : gmap string meta)).
      apply lookup_insert_eq. }
    by rewrite Hlook. }
  split; [|split; [exact Hfailed|by rewrite Hfailed]].
  rewrite TaskStatus_get_handle. fold m.
  destruct (terminal (meta_status m)) eqn:Hterm; [reflexivity|].
  assert (Hm : m = unknown_meta).
  { unfold m in *. destruct (backend w !! task_id) as [m'|] eqn:Hlook; [|reflexivity].
    cbn in Hterm. pose proof (consistent_run evs boot consistent_boot) as [Hfinal _ _].
    fold w in Hfinal. rewrite (Hfinal _ _ Hlook) in Hterm. discriminate. }
  by rewrite Hm.
Qed.


(** C7. The health view answers 200 with one fixed payload, whose status
    field is "healthy", in every world, so after any history; it has no
    failing path and leaves the world as it was. *)
Theorem HealthCheck_get_healthy (evs : list event) (w : world) :
  let payload := [("status", PStr "healthy"); ("message", PStr "API is running!")] in
  handle GET_health w = (Response 200 (PDict payload), w)
  /\ handle GET_health (run evs boot).2 = (Response 200 (PDict payload), (run evs boot).2)
  /\ dict_get "status" payload = Some (PStr "healthy").
Proof. by repeat split. Qed.

(** C1. A send-email body that is a dict without one of the keys to,
    subject, message makes the view raise KeyError at the first key it does
    not find; nothing is published, and what the client receives is the
    framework's 500 answer, not a 4xx one. *)
Theorem SendEmail_post_missing_field (items : list (string * pyval)) (w : world) :
  dict_get "to" items = None \/ dict_get "subject" items = None
  \/ dict_get "message" items = None ->
  exists key,
    key ∈ ["to"; "subject"; "message"]
    /\ dict_get key items = None
    /\ handle (POST_send_email (PDict items)) w = (ServerError (KeyError key), w)
    /\ status_code (handle (POST_send_email (PDict items)) w).1 = 500.
Proof.
  intros Hmissing. unfold handle, route. rewrite SendEmail_post_dict.
  destruct (dict_get "to" items) as [to|] eqn:Hto.
  2: { exists "to". repeat split; [repeat constructor|done]. }
  destruct (dict_get "subject" items) as [subject|] eqn:Hsubject.
  2: { exists "subject". repeat split; [repeat constructor|done]. }
  destruct (dict_get "message" items) as [message|] eqn:Hmessage.
  2: { exists "message". repeat split; [repeat constructor|done]. }
  by destruct Hmissing as [H|[H|H]].
Qed.

(** C4. A send-email body holding to, subject and message, and a start-task
    body holding name, make the view publish one message and answer 202
    with exactly the fields message and task_id, task_id being the
    identifier [delay] returned, which is the identifier of the published
    message.  The message is left at the end of the queue: the backend and
    the worker's log are as before, so nothing of the job has run. *)
Theorem submission_accepted (items : list (string * pyval)) (w : world) :
  let task_id := uuid (published w) in
  (forall to subject message,
     dict_get "to" items = Some to -> dict_get "subject" items = Some subject ->
     dict_get "message" items = Some message ->
     handle (POST_send_email (PDict items)) w
     = (Response 202 (PDict [("message", PStr "Email task started");
                             ("task_id", PStr task_id)]),
        World (S (published w))
              (queue w ++ [Message task_id SendEmailAsync [to; subject; message]])
              (backend w) (worker_log w)))
  /\ (forall name,
        dict_get "name" items = Some name ->
        handle (POST_start_task (PDict items)) w
        = (Response 202 (PDict [("message", PStr "Task started");
                                ("task_id", PStr task_id)]),
           World (S (published w))
                 (queue w ++ [Message task_id LongRunningTaskAsync
                                      [name; default (PInt 5) (dict_get "duration" items)]])
                 (backend w) (worker_log w))).
Proof.
  intros task_id. split.
  - intros to subject message Hto Hsubject Hmessage.
    unfold handle, route. by rewrite SendEmail_post_dict, Hto, Hsubject, Hmessage.
  - intros name Hname.
    unfold handle, route. by rewrite StartTask_post_dict, Hname.
Qed.

Lemma drain_queue (job : message) (q : list message) (w : world) :
  queue w = q ++ [job] ->
  backend (drain (S (length q)) w) !! msg_id job = Some (outcome (call job).2).
Proof.
  revert w. induction q as [|m q IH]; intros w Hq.
  - cbn [length drain]. unfold work. rewrite Hq. cbn [app].
    destruct (call job) as [tr r]. cbn [backend snd]. by rewrite lookup_insert_eq.
  - cbn [length]. change (drain (S (S (length q))) w) with (drain (S (length q)) (work w)).
    apply IH. unfold work. rewrite Hq. cbn [app].
    by destruct (call m) as [tr r].
Qed.

(** C5. A start-task body holding name and no duration publishes the
    long-running task with duration 5.  That call sleeps 5 seconds and
    returns "Task {name} completed in 5 seconds"; once the worker has
    worked the queue off, the status view reports SUCCESS with that text. *)
Theorem StartTask_post_default_duration
    (items : list (string * pyval)) (name : pyval) (w : world) :
  dict_get "name" items = Some name ->
  dict_get "duration" items = None ->
  let task_id := uuid (published w) in
  let job := Message task_id LongRunningTaskAsync [name; PInt 5] in
  let confirmation := PStr ("Task " +:+ py_str name +:+ " completed in 5 seconds") in
  let w1 := (handle (POST_start_task (PDict items)) w).2 in
  let w2 := drain (length (queue w1)) w1 in
  queue w1 = queue w ++ [job]
  /\ (call job).2 = Ok confirmation
  /\ elapsed (call job).1 = 5
  /\ handle (GET_task_status task_id) w2
     = (Response 200 (PDict [("task_id", PStr task_id); ("status", PStr "SUCCESS");
                             ("result", confirmation)]), w2).
Proof.
  intros Hname Hduration task_id job confirmation w1 w2.
  assert (Hw1 : queue w1 = queue w ++ [job]).
  { unfold w1, handle, route. by rewrite StartTask_post_dict, Hname, Hduration. }
  assert (Hcall : call job
                  = ([Stdout ("🚀 Starting task: " +:+ py_str name);
                      Stdout ("⏰ Duration: " +:+ str_int 5 +:+ " seconds")]
                     ++ flat_map
                          (fun i => [Stdout (progress_line name (PInt 5) i); Sleep 1])
                          (range 5)
                     ++ [Stdout ("✅ Task " +:+ py_str name +:+ " completed!")],
                     Ok confirmation)).
  { unfold job, call. cbn [msg_task msg_args]. apply long_running_task_async_int. }
  split; [exact Hw1|]. split; [by rewrite Hcall|]. split; [by rewrite Hcall|].
  rewrite TaskStatus_get_handle.
  assert (Hlook : backend w2 !! task_id = Some (outcome (call job).2)).
  { unfold w2. rewrite Hw1, length_app, Nat.add_comm. cbn [length Nat.add].
    by apply (drain_queue job (queue w) w1). }
  by rewrite Hlook, Hcall.
Qed.

(** ** Identifiers across a history *)

Lemma work_published (w : world) : published (work w) = published w.
Proof.
  destruct (work_cases w) as [[_ ->]|(m & rest & tr & r & _ & _ & ->)]; reflexivity.
Qed.

(** The identifiers a history answers with are the ones drawn for its
    accepted submissions, in order. *)
Lemma run_task_ids (evs : list event) (w : world) :
  omap task_id_of (run evs w).1 = uuid <$> seq (published w) (accepted evs)
  /\ published (run evs w).2 = (published w + accepted evs)%nat.
Proof.
  revert w. induction evs as [|ev evs IH]; intros w.
  { cbn. split; [reflexivity|lia]. }
  cbn [run accepted]. destruct ev as [req|]; cbn [step].
  - destruct (handle_cases req w)
      as [(-> & text & t & args & ->)|(-> & r & -> & Hnone)].
    + match goal with
      | |- context [run evs ?w1] =>
          destruct (IH w1) as [Hids Hpub]; destruct (run evs w1) as [rs w2]
      end.
      cbn [fst snd published] in *. split; [|lia].
      cbn [app omap list_omap task_id_of dict_get String.eqb Ascii.eqb Bool.eqb].
      by rewrite Hids.
    + destruct (IH w) as [Hids Hpub]. destruct (run evs w) as [rs w2].
      cbn [fst snd] in *. split; [|exact Hpub].
      cbn [app omap list_omap]. by rewrite Hnone.
  - destruct (IH (work w)) as [Hids Hpub]. destruct (run evs (work w)) as [rs w2].
    rewrite work_published in Hids, Hpub. by cbn [fst snd app] in *.
Qed.

(** X12. Over any history, the views hand the drawn identifiers through
    unchanged: the task_ids of the 202 answers are, in order, the
    identifiers drawn for the first, second, ... published message, one
    for each accepted submission and none for any other request. *)
Theorem task_ids_as_drawn (evs : list event) :
  omap task_id_of (run evs boot).1 = uuid <$> seq 0 (accepted evs)
  /\ published (run evs boot).2 = accepted evs
  /\ length (omap task_id_of (run evs boot).1) = accepted evs.
Proof.
  destruct (run_task_ids evs boot) as [Hids Hpub]. cbn [published boot] in *.
  split; [exact Hids|]. split; [exact Hpub|].
  by rewrite Hids, length_fmap, length_seq.
Qed.

(** ** Rejected bodies *)

(** X1. A start-task body that is a dict without the key name makes the
    view raise KeyError for name, whether or not duration is given; the
    client receives the 500 answer and nothing is published. *)
Theorem StartTask_post_missing_name (items : list (string * pyval)) (w : world) :
  dict_get "name" items = None ->
  handle (POST_start_task (PDict items)) w = (ServerError (KeyError "name"), w)
  /\ status_code (handle (POST_start_task (PDict items)) w).1 = 500.
Proof.
  intros Hname. unfold handle, route. by rewrite StartTask_post_dict, Hname.
Qed.

(** X2. A body that is not a dict (None, a bool, a number, a string, a
    list) makes both submission views raise TypeError at their first
    subscript; the client receives the 500 answer and nothing is published. *)
Theorem post_body_not_dict (json : pyval) (w : world) :
  (forall items, json <> PDict items) ->
  exists what,
    handle (POST_send_email json) w = (ServerError (TypeError what), w)
    /\ handle (POST_start_task json) w = (ServerError (TypeError what), w).
Proof.
  intros Hnot. destruct json; try (by eexists). by destruct (Hnot items).
Qed.

(** X3. On a duration that is neither an int nor a bool the long-running
    task prints its two opening lines and then raises TypeError at [range]:
    no progress line, no sleep, no completion line, no value returned. *)
Theorem long_running_task_async_not_integral (task_name duration : pyval) :
  integral duration = false ->
  exists what,
    long_running_task_async task_name duration
    = ([Stdout ("🚀 Starting task: " +:+ py_str task_name);
        Stdout ("⏰ Duration: " +:+ py_str duration +:+ " seconds")],
       Raise (TypeError what))
    /\ elapsed (long_running_task_async task_name duration).1 = 0.
Proof.
  intros Hint. destruct duration; try discriminate; by eexists.
Qed.

(** ** What a request may change *)

(** X9. However a request is answered, the backend and the worker's log
    are as before.  It is answered 202 exactly when it is a submission whose
    body holds the keys the view subscripts, and then one message is
    appended to the queue under the identifier the response carries; any
    other request is not answered 202 and leaves the world as it was. *)
Theorem handle_frame (req : request) (w : world) :
  let r := (handle req w).1 in
  let w' := (handle req w).2 in
  backend w' = backend w
  /\ worker_log w' = worker_log w
  /\ ((status_code r = 202 /\ valid_submission req = true
       /\ exists m, task_id_of r = Some (msg_id m)
                    /\ published w' = S (published w)
                    /\ queue w' = queue w ++ [m])
      \/ (status_code r <> 202 /\ valid_submission req = false /\ w' = w)).
Proof.
  destruct req as [|json|json|task_id|]; cbn zeta;
    try (repeat split; right; by repeat split).
  3: { rewrite TaskStatus_get_handle.
       destruct (encodable _); repeat split; right; by repeat split. }
  - destruct json as [| | | | |?|items|];
      try (repeat split; right; by repeat split).
    unfold handle, route, valid_submission. rewrite SendEmail_post_dict.
    destruct (dict_get "to" items) as [to|];
      [|repeat split; right; by repeat split].
    destruct (dict_get "subject" items) as [subject|];
      [|repeat split; right; by repeat split].
    destruct (dict_get "message" items) as [message|];
      [|repeat split; right; by repeat split].
    repeat split. left. repeat split. by eexists (Message _ _ _).
  - destruct json as [| | | | |?|items|];
      try (repeat split; right; by repeat split).
    unfold handle, route, valid_submission. rewrite StartTask_post_dict.
    destruct (dict_get "name" items) as [name|];
      [|repeat split; right; by repeat split].
    repeat split. left. repeat split. by eexists (Message _ _ _).
Qed.

(** ** The worker over several messages *)

Lemma drain_steps (n : nat) (w : world) :
  queue (drain n w) = drop n (queue w)
  /\ worker_log (drain n w)
     = worker_log w ++ flat_map (fun m => (call m).1) (take n (queue w))
  /\ published (drain n w) = published w
  /\ (queue w = [] -> drain n w = w).
Proof.
  revert w. induction n as [|n IH]; intros w.
  { cbn [drain]. rewrite drop_0, take_0. cbn [flat_map]. by rewrite app_nil_r. }
  cbn [drain]. destruct (IH (work w)) as (Hq & Hlog & Hpub & Hidle).
  destruct (work_cases w) as [[Hempty Hwork]|(m & rest & tr & r & Hcons & Hcall & Hwork)].
  - rewrite Hwork in *. rewrite (Hidle Hempty), Hempty.
    split; [reflexivity|]. split; [by rewrite app_nil_r|]. by split.
  - rewrite Hq, Hlog, Hpub, Hwork, Hcons.
    cbn [queue worker_log published drop take flat_map].
    rewrite Hcall. cbn [fst]. rewrite <- app_assoc.
    split; [reflexivity|]. split; [reflexivity|]. by split.
Qed.

(** ** From submission to status *)

(** X4. After a send-email body holding the three keys has been accepted
    and the worker has worked the queue off, the status view, although it
    builds its handle from the long-running task, reports the e-mail job:
    SUCCESS with "Email sent to {to} successfully!".  The job sleeps 3
    seconds. *)
Theorem SendEmail_post_then_status
    (items : list (string * pyval)) (to subject message : pyval) (w : world) :
  dict_get "to" items = Some to ->
  dict_get "subject" items = Some subject ->
  dict_get "message" items = Some message ->
  let task_id := uuid (published w) in
  let job := Message task_id SendEmailAsync [to; subject; message] in
  let w1 := (handle (POST_send_email (PDict items)) w).2 in
  let w2 := drain (length (queue w1)) w1 in
  queue w1 = queue w ++ [job]
  /\ elapsed (call job).1 = 3
  /\ handle (GET_task_status task_id) w2
     = (Response 200
          (PDict [("task_id", PStr task_id); ("status", PStr "SUCCESS");
                  ("result", PStr ("Email sent to " +:+ py_str to +:+ " successfully!"))]),
        w2).
Proof.
  intros Hto Hsubject Hmessage task_id job w1 w2.
  assert (Hw1 : queue w1 = queue w ++ [job]).
  { unfold w1, handle, route. by rewrite SendEmail_post_dict, Hto, Hsubject, Hmessage. }
  split; [exact Hw1|]. split; [reflexivity|].
  rewrite TaskStatus_get_handle.
  assert (Hlook : backend w2 !! task_id = Some (outcome (call job).2)).
  { unfold w2. rewrite Hw1, length_app, Nat.add_comm. cbn [length Nat.add].
    by apply (drain_queue job (queue w) w1). }
  by rewrite Hlook.
Qed.


(** X11. A start-task body that gives an int duration [d] publishes the
    job with that duration: it sleeps [d] seconds, none when [d] is
    negative, and once the worker has worked the queue off the status view
    reports SUCCESS with "Task {name} completed in {d} seconds". *)
Theorem StartTask_post_given_duration
    (items : list (string * pyval)) (name : pyval) (d : Z) (w : world) :
  dict_get "name" items = Some name ->
  dict_get "duration" items = Some (PInt d) ->
  let task_id := uuid (published w) in
  let job := Message task_id LongRunningTaskAsync [name; PInt d] in
  let confirmation :=
    PStr ("Task " +:+ py_str name +:+ " completed in " +:+ str_int d +:+ " seconds") in
  let w1 := (handle (POST_start_task (PDict items)) w).2 in
  let w2 := drain (length (queue w1)) w1 in
  queue w1 = queue w ++ [job]
  /\ elapsed (call job).1 = Z.max 0 d
  /\ handle (GET_task_status task_id) w2
     = (Response 200 (PDict [("task_id", PStr task_id); ("status", PStr "SUCCESS");
                             ("result", confirmation)]), w2).
Proof.
  intros Hname Hduration task_id job confirmation w1 w2.
  assert (Hw1 : queue w1 = queue w ++ [job]).
  { unfold w1, handle, route. by rewrite StartTask_post_dict, Hname, Hduration. }
  assert (Hcall : call job = long_running_task_async name (PInt d)) by reflexivity.
  rewrite long_running_task_async_int in Hcall.
  split; [exact Hw1|]. split.
  { rewrite Hcall. cbn [fst app elapsed].
    rewrite elapsed_app, elapsed_ticks, length_range. cbn [elapsed]. lia. }
  rewrite TaskStatus_get_handle.
  assert (Hlook : backend w2 !! task_id = Some (outcome (call job).2)).
  { unfold w2. rewrite Hw1, length_app, Nat.add_comm. cbn [length Nat.add].
    by apply (drain_queue job (queue w) w1). }
  by rewrite Hlook, Hcall.
Qed.

(** ** Invariants of a history *)

Lemma run_invariant (P : world -> Prop) :
  (forall req w, P w -> P (handle req w).2) ->
  (forall w, P w -> P (work w)) ->
  forall evs w, P w -> P (run evs w).2.
Proof.
  intros Hhandle Hwork evs. induction evs as [|ev evs IH]; intros w HP; [exact HP|].
  cbn [run]. destruct ev as [req|]; cbn [step].
  - specialize (Hhandle req w HP). destruct (handle req w) as [r w'].
    specialize (IH w' Hhandle). by destruct (run evs w').
  - specialize (IH (work w) (Hwork w HP)). by destruct (run evs (work w)).
Qed.

Lemma run_app (evs evs' : list event) (w : world) :
  (run (evs ++ evs') w).2 = (run evs' (run evs w).2).2.
Proof.
  revert w. induction evs as [|ev evs IH]; intros w; [reflexivity|].
  cbn [app run]. destruct (step ev w) as [rs w1]. specialize (IH w1).
  destruct (run (evs ++ evs') w1) as [rs2 w2], (run evs w1) as [rs3 w3].
  exact IH.
Qed.

(** A request publishes one well-formed message under the next identifier,
    or changes nothing. *)
Lemma handle_publish (req : request) (w : world) :
  (exists m,
     well_formed m /\ msg_id m = uuid (published w)
     /\ (handle req w).2
        = World (S (published w)) (queue w ++ [m]) (backend w) (worker_log w))
  \/ (handle req w).2 = w.
Proof.
  destruct req as [|json|json|task_id|]; try (by right).
  - destruct json as [| | | | |?|items|]; try (by right).
    unfold handle, route. rewrite SendEmail_post_dict.
    destruct (dict_get "to" items) as [to|]; [|by right].
    destruct (dict_get "subject" items) as [subject|]; [|by right].
    destruct (dict_get "message" items) as [message|]; [|by right].
    left. exists (Message (uuid (published w)) SendEmailAsync [to; subject; message]).
    by repeat split.
  - destruct json as [| | | | |?|items|]; try (by right).
    unfold handle, route. rewrite StartTask_post_dict.
    destruct (dict_get "name" items) as [name|]; [|by right].
    left. exists (Message (uuid (published w)) LongRunningTaskAsync
                         [name; default (PInt 5) (dict_get "duration" items)]).
    by repeat split.
Qed.

(** Calling a well-formed message returns a string or raises TypeError. *)
Lemma call_shaped (m : message) : well_formed m -> shaped (outcome (call m).2).
Proof.
  destruct m as [task_id t args]. unfold well_formed, call. cbn [msg_task msg_args].
  destruct t, args as [|a [|b [|c [|d args]]]]; try done; intros _.
  - left. split; [reflexivity|by eexists].
  - destruct b as [|[]|z| | | | |];
      try (right; split; [reflexivity|by eexists]).
    + left. split; [reflexivity|by eexists].
    + left. split; [reflexivity|by eexists].
    + rewrite long_running_task_async_int. left. split; [reflexivity|by eexists].
Qed.

Lemma regular_boot : regular boot.
Proof.
  split; cbn.
  - intros m H. by apply elem_of_nil in H.
  - intros task_id m H. by rewrite lookup_empty in H.
Qed.

Lemma regular_handle (req : request) (w : world) :
  regular w -> regular (handle req w).2.
Proof.
  intros [Hqueue Hstored].
  destruct (handle_publish req w) as [(m & Hm & _ & ->)| ->]; [|by split].
  split; cbn [queue backend]; [|exact Hstored].
  intros m' [H | ->%list_elem_of_singleton]%elem_of_app; [by apply Hqueue|exact Hm].
Qed.

Lemma regular_work (w : world) : regular w -> regular (work w).
Proof.
  intros [Hqueue Hstored].
  destruct (work_cases w) as [[_ ->]|(m & rest & tr & r & Hq & Hcall & ->)]; [by split|].
  split; cbn [queue backend].
  - intros m' Hm'. apply Hqueue. rewrite Hq. by right.
  - intros task_id m' [[_ <-]|[_ H]]%lookup_insert_Some; [|by eapply Hstored].
    replace r with (call m).2 by (by rewrite Hcall).
    apply call_shaped, Hqueue. rewrite Hq. by left.
Qed.

Lemma tracked_boot : tracked boot.
Proof. intros task_id H. by apply elem_of_nil in H. Qed.

Lemma tracked_handle (req : request) (w : world) :
  tracked w -> tracked (handle req w).2.
Proof.
  intros Htracked.
  destruct (handle_publish req w) as [(m & _ & Hid & ->)| ->]; [|done].
  intros task_id (n & Hn & ->)%elem_of_issued. cbn [published queue backend] in *.
  rewrite fmap_app, elem_of_app.
  destruct (decide (n = published w)) as [->|Hne].
  - left. right. cbn. rewrite Hid. by left.
  - destruct (Htracked (uuid n)) as [H|H]; [|by left; left|by right].
    apply elem_of_issued. exists n. split; [lia|done].
Qed.

Lemma tracked_work (w : world) : tracked w -> tracked (work w).
Proof.
  intros Htracked.
  destruct (work_cases w) as [[_ ->]|(m & rest & tr & r & Hq & _ & ->)]; [done|].
  intros task_id Hissued. cbn [queue backend].
  destruct (Htracked task_id Hissued) as [H|H].
  - rewrite Hq in H. cbn in H. apply elem_of_cons in H as [->|H]; [|by left].
    right. rewrite lookup_insert_eq. by eexists.
  - right. rewrite lookup_insert_is_Some. destruct (decide (msg_id m = task_id)); auto.
Qed.

(** X10. In every world a history leads to, a status request is answered
    in one of three ways, by what the backend holds for the identifier:
    200 with PENDING and None when it holds nothing, 200 with SUCCESS and a
    string when the job returned, and 500 when the job raised, its record
    being FAILURE with a TypeError.  STARTED is never reported, and the
    world is left as it was. *)
Theorem TaskStatus_get_shapes (evs : list event) (task_id : string) :
  let w := (run evs boot).2 in
  let r := (handle (GET_task_status task_id) w).1 in
  (handle (GET_task_status task_id) w).2 = w
  /\ ((backend w !! task_id = None
       /\ r = Response 200 (PDict [("task_id", PStr task_id); ("status", PStr "PENDING");
                                   ("result", PNone)]))
      \/ (exists s,
            backend w !! task_id = Some (Meta SUCCESS (PStr s))
            /\ r = Response 200 (PDict [("task_id", PStr task_id);
                                        ("status", PStr "SUCCESS"); ("result", PStr s)]))
      \/ (exists what,
            backend w !! task_id = Some (Meta FAILURE (PExc (TypeError what)))
            /\ r = ServerError not_serializable)).
Proof.
  intros w r. unfold r. rewrite TaskStatus_get_handle. split; [reflexivity|].
  pose proof (run_invariant regular regular_handle regular_work evs boot regular_boot)
    as [_ Hstored].
  fold w in Hstored.
  destruct (backend w !! task_id) as [[st res]|] eqn:Hlook; [|by left].
  destruct (Hstored _ _ Hlook) as [[Hst [s Hres]]|[Hst [what Hres]]];
    cbn in Hst, Hres; subst st res.
  - right. left. by exists s.
  - right. right. by exists what.
Qed.

Lemma drain_invariant (P : world -> Prop) :
  (forall w, P w -> P (work w)) -> forall n w, P w -> P (drain n w).
Proof.
  intros Hwork n. induction n as [|n IH]; intros w HP; [exact HP|].
  cbn [drain]. by apply IH, Hwork.
Qed.

(** X8. After any history, once the worker has taken every message still
    queued, the queue is empty and every identifier handed out during the
    history has a final record: SUCCESS with a string, which the status
    request reports with 200, or FAILURE with a TypeError, for which the
    status request is answered 500. *)
Theorem drained_all_final (evs : list event) (task_id : string) :
  let w := (run evs boot).2 in
  let w' := drain (length (queue w)) w in
  task_id ∈ issued w ->
  queue w' = []
  /\ ((exists s,
         backend w' !! task_id = Some (Meta SUCCESS (PStr s))
         /\ handle (GET_task_status task_id) w'
            = (Response 200 (PDict [("task_id", PStr task_id); ("status", PStr "SUCCESS");
                                    ("result", PStr s)]), w'))
      \/ (exists what,
            backend w' !! task_id = Some (Meta FAILURE (PExc (TypeError what)))
            /\ handle (GET_task_status task_id) w' = (ServerError not_serializable, w'))).
Proof.
  intros w w' Hissued.
  destruct (drain_steps (length (queue w)) w) as (Hq & _ & Hpub & _). fold w' in Hq, Hpub.
  rewrite drop_all in Hq. split; [exact Hq|].
  assert (Hregular : regular w').
  { apply drain_invariant; [exact regular_work|].
    apply (run_invariant regular regular_handle regular_work), regular_boot. }
  assert (Htracked : tracked w').
  { apply drain_invariant; [exact tracked_work|].
    apply (run_invariant tracked tracked_handle tracked_work), tracked_boot. }
  assert (Hissued' : task_id ∈ issued w') by (unfold issued in *; by rewrite Hpub).
  destruct (Htracked task_id Hissued') as [H|[[st res] Hm]].
  { rewrite Hq in H. by apply elem_of_nil in H. }
  rewrite TaskStatus_get_handle, Hm.
  destruct (stored_shaped w' Hregular _ _ Hm) as [[Hst [s Hres]]|[Hst [what Hres]]];
    cbn in Hst, Hres; subst st res.
  - left. by exists s.
  - right. by exists what.
Qed.

Section Distinct.

(** No identifier is drawn twice. *)
Hypothesis uuid_distinct : forall i j, uuid i = uuid j -> i = j.

Lemma next_id_fresh (w : world) : uuid (published w) ∉ issued w.
Proof.
  intros (n & Hn & Heq)%elem_of_issued. apply uuid_distinct in Heq. lia.
Qed.

Lemma orderly_boot : consistent boot /\ orderly boot.
Proof.
  split; [exact consistent_boot|]. split; cbn.
  - constructor.
  - intros m H. by apply elem_of_nil in H.
Qed.

Lemma orderly_handle (req : request) (w : world) :
  consistent w /\ orderly w -> consistent (handle req w).2 /\ orderly (handle req w).2.
Proof.
  intros [Hcons [Hnodup Hpending]].
  split; [by apply consistent_handle|].
  destruct (handle_publish req w) as [(m & _ & Hid & ->)| ->]; [|by split].
  pose proof (next_id_fresh w) as Hfresh. rewrite <- Hid in Hfresh.
  split; cbn [queue backend published].
  - rewrite fmap_app. apply NoDup_app. split; [exact Hnodup|]. split.
    + intros task_id (m' & -> & Hm')%list_elem_of_fmap Hin.
      cbn in Hin. apply list_elem_of_singleton in Hin.
      apply Hfresh. rewrite <- Hin. by apply (queued_issued w Hcons).
    + cbn. apply NoDup_singleton.
  - intros m' [Hm' | ->%list_elem_of_singleton]%elem_of_app; [by apply Hpending|].
    destruct (backend w !! msg_id m) as [rec|] eqn:Hlook; [|reflexivity].
    destruct Hfresh. by apply (stored_issued w Hcons _ rec).
Qed.

Lemma orderly_work (w : world) :
  consistent w /\ orderly w -> consistent (work w) /\ orderly (work w).
Proof.
  intros [Hcons [Hnodup Hpending]].
  split; [by apply consistent_work|].
  destruct (work_cases w) as [[_ ->]|(m & rest & tr & r & Hq & _ & ->)]; [by split|].
  rewrite Hq in Hnodup. cbn in Hnodup.
  apply NoDup_cons in Hnodup as [Hhead Hrest].
  split; cbn [queue backend published].
  - exact Hrest.
  - intros m' Hm'. rewrite lookup_insert_ne.
    + apply Hpending. rewrite Hq. by right.
    + intros Heq. apply Hhead. rewrite Heq. by apply list_elem_of_fmap_2.
Qed.

Lemma orderly_run (evs : list event) :
  consistent (run evs boot).2 /\ orderly (run evs boot).2.
Proof.
  apply (run_invariant (fun w => consistent w /\ orderly w) orderly_handle orderly_work),
    orderly_boot.
Qed.

(** A stored record stays as it is through any further history. *)
Lemma record_kept (evs : list event) (w : world) (task_id : string) (m : meta) :
  consistent w /\ orderly w ->
  backend w !! task_id = Some m ->
  backend (run evs w).2 !! task_id = Some m.
Proof.
  revert w. induction evs as [|ev evs IH]; intros w Hinv Hlook; [exact Hlook|].
  cbn [run]. destruct ev as [req|]; cbn [step].
  - pose proof (orderly_handle req w Hinv) as Hinv'.
    assert (Hlook' : backend (handle req w).2 !! task_id = Some m).
    { destruct (handle_publish req w) as [(m' & _ & _ & ->)| ->]; exact Hlook. }
    destruct (handle req w) as [r w']. specialize (IH w' Hinv' Hlook').
    by destruct (run evs w').
  - pose proof (orderly_work w Hinv) as Hinv'.
    assert (Hlook' : backend (work w) !! task_id = Some m).
    { destruct Hinv as [_ [_ Hpending]].
      destruct (work_cases w) as [[_ ->]|(m' & rest & tr & r & Hq & _ & ->)]; [exact Hlook|].
      cbn [backend]. rewrite lookup_insert_ne; [exact Hlook|].
      intros <-. rewrite Hpending in Hlook; [discriminate|]. rewrite Hq. by left. }
    specialize (IH (work w) Hinv' Hlook'). by destruct (run evs (work w)).
Qed.

(** X6. Polled right after its submission was accepted, a job is PENDING
    with no result, whatever the history before, when identifiers are
    distinct. *)
Theorem status_after_submission (evs : list event) (req : request) :
  valid_submission req = true ->
  let w := (run evs boot).2 in
  let w1 := (handle req w).2 in
  exists task_id,
    task_id_of (handle req w).1 = Some task_id
    /\ handle (GET_task_status task_id) w1
       = (Response 200 (PDict [("task_id", PStr task_id); ("status", PStr "PENDING");
                               ("result", PNone)]), w1).
Proof.
  intros Hvalid w w1. unfold w1.
  destruct (handle_cases req w)
    as [(_ & text & t & args & ->)|(Hinvalid & _)]; [|congruence].
  exists (uuid (published w)). split; [reflexivity|].
  rewrite TaskStatus_get_handle. cbn [snd backend].
  destruct (backend w !! uuid (published w)) as [m|] eqn:Hlook; [|reflexivity].
  destruct (next_id_fresh w).
  eapply (stored_issued w); [|exact Hlook]. apply consistent_run, consistent_boot.
Qed.

(** X7. No request and no worker step overwrites a stored record: when
    identifiers are distinct, whatever requests and worker steps follow, the
    backend holds the same record for the job and the status view gives the
    same answer. *)
Theorem record_immutable (evs evs' : list event) (task_id : string) (m : meta) :
  let w1 := (run evs boot).2 in
  let w2 := (run (evs ++ evs') boot).2 in
  backend w1 !! task_id = Some m ->
  backend w2 !! task_id = Some m
  /\ (handle (GET_task_status task_id) w2).1 = (handle (GET_task_status task_id) w1).1.
Proof.
  intros w1 w2 Hlook.
  assert (Hlook2 : backend w2 !! task_id = Some m).
  { unfold w2. rewrite run_app. apply record_kept; [apply orderly_run|exact Hlook]. }
  split; [exact Hlook2|]. by rewrite !TaskStatus_get_handle, Hlook, Hlook2.
Qed.

End Distinct.

End App.

(** ** Instances on explicit inputs *)

Lemma long_running_task_async_completes_build :
  0 <= 2
  /\ long_running_task_async sample_repr (PStr "build") (PInt 2)
     = ([Stdout "🚀 Starting task: build"; Stdout "⏰ Duration: 2 seconds";
         Stdout "⏳ Task build: 1/2"; Sleep 1;
         Stdout "⏳ Task build: 2/2"; Sleep 1;
         Stdout "✅ Task build completed!"],
        Ok (PStr "Task build completed in 2 seconds")).
Proof.
  split; [lia|].
  destruct (long_running_task_async_completes sample_repr "build" 2 ltac:(lia))
    as (tr & Hrun & Htr & _).
  rewrite Hrun, Htr. reflexivity.
Defined.

Lemma long_running_task_async_nonpositive_minus3 :
  -3 <= 0
  /\ long_running_task_async sample_repr (PStr "build") (PInt (-3))
     = ([Stdout "🚀 Starting task: build"; Stdout "⏰ Duration: -3 seconds";
         Stdout "✅ Task build completed!"],
        Ok (PStr "Task build completed in -3 seconds")).
Proof.
  split; [lia|].
  apply (long_running_task_async_nonpositive sample_repr (PStr "build") (-3)). lia.
Defined.

Lemma serial_id_inj (i j : nat) : serial_id i = serial_id j -> i = j.
Proof.
  revert j. induction i as [|i IH]; intros [|j] H; try done.
  f_equal. apply IH. by injection H.
Qed.

Lemma SendEmail_post_missing_field_to :
  let items := [("subject", PStr "Hello"); ("message", PStr "Greetings")] in
  (dict_get "to" items = None \/ dict_get "subject" items = None
   \/ dict_get "message" items = None)
  /\ exists key,
       key ∈ ["to"; "subject"; "message"]
       /\ dict_get key items = None
       /\ handle serial_id (POST_send_email (PDict items)) boot
          = (ServerError (KeyError key), boot)
       /\ status_code (handle serial_id (POST_send_email (PDict items)) boot).1 = 500.
Proof.
  split; [by left|].
  apply (SendEmail_post_missing_field serial_id
           [("subject", PStr "Hello"); ("message", PStr "Greetings")] boot).
  by left.
Defined.

Lemma submission_accepted_at_boot :
  let items := [("to", PStr "ann@example.org"); ("subject", PStr "Hello");
                ("message", PStr "Greetings"); ("name", PStr "build")] in
  handle serial_id (POST_send_email (PDict items)) boot
  = (Response 202 (PDict [("message", PStr "Email task started"); ("task_id", PStr "id")]),
     World 1 [Message "id" SendEmailAsync
                      [PStr "ann@example.org"; PStr "Hello"; PStr "Greetings"]] ∅ [])
  /\ handle serial_id (POST_start_task (PDict items)) boot
     = (Response 202 (PDict [("message", PStr "Task started"); ("task_id", PStr "id")]),
        World 1 [Message "id" LongRunningTaskAsync [PStr "build"; PInt 5]] ∅ []).
Proof.
  destruct (submission_accepted serial_id
              [("to", PStr "ann@example.org"); ("subject", PStr "Hello");
               ("message", PStr "Greetings"); ("name", PStr "build")] boot)
    as [Hemail Htask].
  split; [apply Hemail; reflexivity | apply Htask; reflexivity].
Defined.

Lemma StartTask_post_default_duration_build :
  let items := [("name", PStr "build")] in
  let w2 := drain sample_repr 1 (handle serial_id (POST_start_task (PDict items)) boot).2 in
  dict_get "name" items = Some (PStr "build")
  /\ dict_get "duration" items = None
  /\ handle serial_id (GET_task_status "id") w2
     = (Response 200 (PDict [("task_id", PStr "id"); ("status", PStr "SUCCESS");
                             ("result", PStr "Task build completed in 5 seconds")]), w2).
Proof.
  split; [reflexivity|]. split; [reflexivity|].
  apply (StartTask_post_default_duration sample_repr serial_id
           [("name", PStr "build")] (PStr "build") boot eq_refl eq_refl).
Defined.



Lemma StartTask_post_missing_name_sample :
  let items := [("duration", PInt 3)] in
  dict_get "name" items = None
  /\ handle serial_id (POST_start_task (PDict items)) boot
     = (ServerError (KeyError "name"), boot).
Proof.
  split; [reflexivity|].
  apply (StartTask_post_missing_name serial_id [("duration", PInt 3)] boot eq_refl).
Defined.

Lemma post_body_not_dict_none :
  (forall items, PNone <> PDict items)
  /\ exists what,
       handle serial_id (POST_send_email PNone) boot = (ServerError (TypeError what), boot)
       /\ handle serial_id (POST_start_task PNone) boot = (ServerError (TypeError what), boot).
Proof.
  split; [discriminate|].
  apply (post_body_not_dict serial_id PNone boot). discriminate.
Defined.

Lemma long_running_task_async_not_integral_soon :
  integral (PStr "soon") = false
  /\ exists what,
       long_running_task_async sample_repr (PStr "build") (PStr "soon")
       = ([Stdout "🚀 Starting task: build"; Stdout "⏰ Duration: soon seconds"],
          Raise (TypeError what))
       /\ elapsed (long_running_task_async sample_repr (PStr "build") (PStr "soon")).1 = 0.
Proof.
  split; [reflexivity|].
  apply (long_running_task_async_not_integral sample_repr (PStr "build") (PStr "soon") eq_refl).
Defined.

Lemma SendEmail_post_then_status_sample :
  let items := [("to", PStr "ann@example.org"); ("subject", PStr "Hello");
                ("message", PStr "Greetings")] in
  let w2 := drain sample_repr 1 (handle serial_id (POST_send_email (PDict items)) boot).2 in
  dict_get "to" items = Some (PStr "ann@example.org")
  /\ dict_get "subject" items = Some (PStr "Hello")
  /\ dict_get "message" items = Some (PStr "Greetings")
  /\ handle serial_id (GET_task_status "id") w2
     = (Response 200
          (PDict [("task_id", PStr "id"); ("status", PStr "SUCCESS");
                  ("result", PStr "Email sent to ann@example.org successfully!")]), w2).
Proof.
  do 3 (split; [reflexivity|]).
  apply (SendEmail_post_then_status sample_repr serial_id
           [("to", PStr "ann@example.org"); ("subject", PStr "Hello");
            ("message", PStr "Greetings")]
           (PStr "ann@example.org") (PStr "Hello") (PStr "Greetings") boot
           eq_refl eq_refl eq_refl).
Defined.


Lemma status_after_submission_sample :
  let evs := [Incoming (POST_start_task (PDict [("name", PStr "build")])); Worker] in
  let req := POST_send_email
               (PDict [("to", PStr "ann@example.org"); ("subject", PStr "Hello");
                       ("message", PStr "Greetings")]) in
  let w := (run sample_repr serial_id evs boot).2 in
  let w1 := (handle serial_id req w).2 in
  valid_submission req = true
  /\ exists task_id,
       task_id_of (handle serial_id req w).1 = Some task_id
       /\ handle serial_id (GET_task_status task_id) w1
          = (Response 200 (PDict [("task_id", PStr task_id); ("status", PStr "PENDING");
                                  ("result", PNone)]), w1).
Proof.
  split; [reflexivity|].
  apply (status_after_submission sample_repr serial_id serial_id_inj
           [Incoming (POST_start_task (PDict [("name", PStr "build")])); Worker]
           (POST_send_email
              (PDict [("to", PStr "ann@example.org"); ("subject", PStr "Hello");
                      ("message", PStr "Greetings")]))
           eq_refl).
Defined.

Lemma record_immutable_sample :
  let submit := Incoming (POST_start_task (PDict [("name", PStr "build");
                                                  ("duration", PInt 0)])) in
  let m := Meta SUCCESS (PStr "Task build completed in 0 seconds") in
  let w1 := (run sample_repr serial_id [submit; Worker] boot).2 in
  let w2 := (run sample_repr serial_id ([submit; Worker] ++ [submit; Worker]) boot).2 in
  backend w1 !! "id" = Some m
  /\ backend w2 !! "id" = Some m.
Proof.
  assert (Hlook : backend
                    (run sample_repr serial_id
                       [Incoming (POST_start_task (PDict [("name", PStr "build");
                                                          ("duration", PInt 0)]));
                        Worker] boot).2 !! "id"
                  = Some (Meta SUCCESS (PStr "Task build completed in 0 seconds")))
    by (vm_compute; reflexivity).
  split; [exact Hlook|].
  apply (record_immutable sample_repr serial_id serial_id_inj
           [Incoming (POST_start_task (PDict [("name", PStr "build"); ("duration", PInt 0)]));
            Worker]
           [Incoming (POST_start_task (PDict [("name", PStr "build"); ("duration", PInt 0)]));
            Worker]
           "id" (Meta SUCCESS (PStr "Task build completed in 0 seconds")) Hlook).
Defined.

Lemma drained_all_final_sample :
  let evs := [Incoming (POST_start_task (PDict [("name", PStr "build");
                                                ("duration", PNone)]))] in
  let w := (run sample_repr serial_id evs boot).2 in
  let w' := drain sample_repr (length (queue w)) w in
  ("id" ∈ issued serial_id w)
  /\ queue w' = []
  /\ ((exists s,
         backend w' !! "id" = Some (Meta SUCCESS (PStr s))
         /\ handle serial_id (GET_task_status "id") w'
            = (Response 200 (PDict [("task_id", PStr "id"); ("status", PStr "SUCCESS");
                                    ("result", PStr s)]), w'))
      \/ (exists what,
            backend w' !! "id" = Some (Meta FAILURE (PExc (TypeError what)))
            /\ handle serial_id (GET_task_status "id") w'
               = (ServerError not_serializable, w'))).
Proof.
  assert (Hin : "id" ∈ issued serial_id
                  (run sample_repr serial_id
                     [Incoming (POST_start_task (PDict [("name", PStr "build");
                                                        ("duration", PNone)]))] boot).2)
    by (by left).
  split; [exact Hin|].
  exact (drained_all_final sample_repr serial_id
           [Incoming (POST_start_task (PDict [("name", PStr "build");
                                              ("duration", PNone)]))] "id" Hin).
Defined.

Lemma StartTask_post_given_duration_build :
  let items := [("name", PStr "build"); ("duration", PInt 2)] in
  let w2 := drain sample_repr 1 (handle serial_id (POST_start_task (PDict items)) boot).2 in
  dict_get "name" items = Some (PStr "build")
  /\ dict_get "duration" items = Some (PInt 2)
  /\ handle serial_id (GET_task_status "id") w2
     = (Response 200
          (PDict [("task_id", PStr "id"); ("status", PStr "SUCCESS");
                  ("result", PStr "Task build completed in 2 seconds")]), w2).
Proof.
  do 2 (split; [reflexivity|]).
  apply (StartTask_post_given_duration sample_repr serial_id
           [("name", PStr "build"); ("duration", PInt 2)] (PStr "build") 2 boot
           eq_refl eq_refl).
Defined.
